(** * JetStream error taxonomy ([jetstream/errors.go])

    A shallow embedding of the error values of the [jetstream] package:
    the [APIError] and [jsError] structures, their methods, the error-code
    constants and the package-level error variables, together with the part
    of Go's [errors] and [fmt] packages those methods call. *)

From Stdlib Require Import NArith ZArith List String Ascii Bool Lia.
From Stdlib Require Import DecimalString DecimalN DecimalPos.
From Equations Require Import Equations.
Import ListNotations.

Open Scope string_scope.
Open Scope N_scope.

(** ** Go runtime notions used by the package *)

(** A call either returns or panics (nil-pointer dereference). *)
Inductive result (A : Type) : Type :=
| Ok (a : A)
| Panic.
Arguments Ok {A} a.
Arguments Panic {A}.

Definition bind {A B : Type} (r : result A) (k : A -> result B) : result B :=
  match r with
  | Ok a => k a
  | Panic => Panic
  end.

Notation "x <- r ;; k" := (bind r (fun x => k))
  (at level 61, r at next level, right associativity).

(** Pointers.  Nothing in the package writes through a pointer, so a
    non-nil pointer is its address together with the struct it points to;
    [null] is Go's [nil] pointer.  Two pointers are [==] when they hold the
    same address. *)
Definition addr := N.

Inductive ptr (A : Type) : Type :=
| null
| ref (a : addr) (v : A).
Arguments null {A}.
Arguments ref {A} a v.

Definition ptr_eqb {A : Type} (p q : ptr A) : bool :=
  match p, q with
  | null, null => true
  | ref a _, ref b _ => N.eqb a b
  | _, _ => false
  end.

(** [fmt.Sprintf]'s [%d] verb at an unsigned integer. *)
Definition fmt_d (n : N) : string := NilZero.string_of_uint (N.to_uint n).

(** ** Types of the package *)

(** [type ErrorCode uint16]; values range over 0..65535. *)
Definition ErrorCode_t := N.

Definition is_uint16 (n : N) : bool := n <? 65536.

Record APIError : Type := mkAPIError {
  Code : Z;
  ErrorCode : ErrorCode_t;
  Description : string
}.

Record jsError : Type := mkJsError {
  apiErr : ptr APIError;
  message : string
}.

(** Values of the interface type [error] that the package builds or meets:
    the [nil] interface, [*APIError], [*jsError], the [*errors.errorString]
    made by [errors.New], and the [*fmt.wrapError] made by [fmt.Errorf]
    with a [%w] verb (a message and the wrapped error).  A pointer held in
    an interface may itself be [null]. *)
Inductive error : Type :=
| nil
| of_APIError (p : ptr APIError)
| of_jsError (p : ptr jsError)
| of_errorString (p : ptr string)
| of_wrapError (a : addr) (msg : string) (err : error).

(** [==] on interface values: same dynamic type and same pointer. *)
Definition error_eqb (x y : error) : bool :=
  match x, y with
  | nil, nil => true
  | of_APIError p, of_APIError q => ptr_eqb p q
  | of_jsError p, of_jsError q => ptr_eqb p q
  | of_errorString p, of_errorString q => ptr_eqb p q
  | of_wrapError a _ _, of_wrapError b _ _ => N.eqb a b
  | _, _ => false
  end.

(** The interface [JetStreamError { APIError() *APIError; error }]: the
    dynamic types whose method set has [APIError()] and [Error()]. *)
Definition implements_JetStreamError (err : error) : bool :=
  match err with
  | of_APIError _ | of_jsError _ => true
  | _ => false
  end.

(** ** Error code constants *)

Definition JSErrCodeJetStreamNotEnabledForAccount : ErrorCode_t := 10039.
Definition JSErrCodeJetStreamNotEnabled : ErrorCode_t := 10076.
Definition JSErrCodeStreamNotFound : ErrorCode_t := 10059.
Definition JSErrCodeStreamNameInUse : ErrorCode_t := 10058.
Definition JSErrCodeConsumerNotFound : ErrorCode_t := 10014.
Definition JSErrCodeConsumerNameExists : ErrorCode_t := 10013.
Definition JSErrCodeConsumerAlreadyExists : ErrorCode_t := 10105.
Definition JSErrCodeMessageNotFound : ErrorCode_t := 10037.
Definition JSErrCodeBadRequest : ErrorCode_t := 10003.

(** ** Methods *)

(** [func (e *APIError) Error() string] *)
Definition APIError_Error (e : ptr APIError) : result string :=
  match e with
  | null => Panic
  | ref _ v =>
      Ok ("nats: API error " ++ fmt_d (ErrorCode v) ++ ": " ++ Description v)
  end.

(** [func (e *APIError) APIError() *APIError] *)
Definition APIError_APIError (e : ptr APIError) : ptr APIError := e.

(** [func (err *jsError) APIError() *APIError] *)
Definition jsError_APIError (err : ptr jsError) : result (ptr APIError) :=
  match err with
  | null => Panic
  | ref _ v => Ok (apiErr v)
  end.

(** [func (err *jsError) Error() string] *)
Definition jsError_Error (err : ptr jsError) : result string :=
  match err with
  | null => Panic
  | ref _ v =>
      match apiErr v with
      | ref _ a =>
          if negb (String.eqb (Description a) "")
          then APIError_Error (apiErr v)
          else Ok ("nats: " ++ message v)
      | null => Ok ("nats: " ++ message v)
      end
  end.

(** [func (err *jsError) Unwrap() error] *)
Definition jsError_Unwrap (err : ptr jsError) : result error :=
  match err with
  | null => Panic
  | ref _ v =>
      match apiErr v with
      | null => Ok nil
      | ref _ _ => Ok (of_APIError (apiErr v))
      end
  end.

(** [errors.Unwrap]: calls the [Unwrap] method when the dynamic type has
    one, and returns [nil] otherwise. *)
Definition errors_Unwrap (err : error) : result error :=
  match err with
  | of_jsError p => jsError_Unwrap p
  | of_wrapError _ _ inner => Ok inner
  | _ => Ok nil
  end.

(** An upper bound on the length of the unwrap chain. *)
Fixpoint height (err : error) : nat :=
  match err with
  | nil => 0
  | of_APIError _ => 1
  | of_errorString _ => 1
  | of_jsError _ => 2
  | of_wrapError _ _ inner => S (height inner)
  end.

Lemma errors_Unwrap_height (err next : error) :
  errors_Unwrap err = Ok next -> err <> nil ->
  (height next < height err)%nat.
Proof.
  destruct err as [ | p | [ | a [q m]] | p | a msg inner]; simpl;
    intros H Hnil; try congruence; try (inversion H; subst; simpl; lia).
  destruct q; inversion H; subst; simpl; lia.
Qed.

(** Closes the termination goals of the chain walks: the next error of the
    chain is lower. *)
Ltac unwrap_decreases :=
  match goal with
  | H : jsError_Unwrap ?p = Ok ?next |- (height ?next < _)%nat =>
      apply (@errors_Unwrap_height (of_jsError p) next H); discriminate
  | H : errors_Unwrap ?err = Ok ?next |- _ =>
      apply (@errors_Unwrap_height err next H); intros ->; discriminate
  end.

(** Case analysis that keeps the equation, for recursion on the result of a
    call. *)
Definition inspect {A : Type} (a : A) : { b : A | a = b } :=
  exist _ a eq_refl.

(** [errors.As(err, &aerr)] at a target of type [**APIError]: the first
    error of [err]'s chain that is assignable to [*APIError] is stored in
    the target.  The result is the returned boolean and the target's
    content afterwards ([target] is its content before the call).  None of
    the dynamic types of [error] has an [As] method. *)
Equations? errors_As (err : error) (target : ptr APIError)
  : result (bool * ptr APIError) by wf (height err) lt :=
  errors_As nil target := Ok (false, target);
  errors_As (of_APIError p) target := Ok (true, p);
  errors_As err target with inspect (errors_Unwrap err) := {
    | exist _ Panic _ := Panic;
    | exist _ (Ok next) Hnext := errors_As next target }.
Proof.
  all: unwrap_decreases.
Qed.

(** [func (e *APIError) Is(err error) bool] *)
Definition APIError_Is (e : ptr APIError) (err : error) : result bool :=
  match e with
  | null => Ok false
  | ref _ ev =>
      r <- errors_As err null ;;
      let '(ok, aerr) := r in
      if negb ok then Ok ok
      else
        match aerr with
        | null => Panic
        | ref _ av => Ok (ErrorCode ev =? ErrorCode av)
        end
  end.

(** The [Is] method of the dynamic type, when it has one: the result of
    [x, ok := err.(interface{ Is(error) bool }); ok && x.Is(target)]. *)
Definition method_Is (err target : error) : result bool :=
  match err with
  | of_APIError p => APIError_Is p target
  | _ => Ok false
  end.

(** The loop of [errors.Is].  Every dynamic type of [error] is a pointer
    type, hence comparable. *)
Equations? errors_Is_loop (err target : error) : result bool
  by wf (height err) lt :=
  errors_Is_loop err target with error_eqb err target := {
    | true := Ok true;
    | false with method_Is err target := {
      | Panic := Panic;
      | Ok true := Ok true;
      | Ok false with inspect (errors_Unwrap err) := {
        | exist _ Panic _ := Panic;
        | exist _ (Ok nil) _ := Ok false;
        | exist _ (Ok next) Hnext := errors_Is_loop next target } } }.
Proof.
  all: unwrap_decreases.
Qed.

(** [errors.Is(err, target)] *)
Definition errors_Is (err target : error) : result bool :=
  match target with
  | nil => Ok (error_eqb err target)
  | _ => errors_Is_loop err target
  end.

(** Call of [Error()] through the interface [error]. *)
Definition error_Error (err : error) : result string :=
  match err with
  | nil => Panic
  | of_APIError p => APIError_Error p
  | of_jsError p => jsError_Error p
  | of_errorString null => Panic
  | of_errorString (ref _ s) => Ok s
  | of_wrapError _ msg _ => Ok msg
  end.

(** [errors.New(text)], allocated at [a]. *)
Definition errors_New (a : addr) (text : string) : error :=
  of_errorString (ref a text).

(** ** Package-level error variables

    Each composite literal [&jsError{...}], [&APIError{...}] and each
    [errors.New] call of the [var] block is one allocation; they are
    numbered in source order.  An omitted field has its zero value. *)

(** *** API errors *)

Definition ErrJetStreamNotEnabled : error :=
  of_jsError (ref 1 {|
    apiErr := ref 2 {| ErrorCode := JSErrCodeJetStreamNotEnabled;
                        Description := "jetstream not enabled";
                        Code := 503 |};
    message := "" |}).

Definition ErrJetStreamNotEnabledForAccount : error :=
  of_jsError (ref 3 {|
    apiErr := ref 4 {| ErrorCode := JSErrCodeJetStreamNotEnabledForAccount;
                        Description := "jetstream not enabled for account";
                        Code := 503 |};
    message := "" |}).

Definition ErrStreamNotFound : error :=
  of_jsError (ref 5 {|
    apiErr := ref 6 {| ErrorCode := JSErrCodeStreamNotFound;
                        Description := "stream not found";
                        Code := 404 |};
    message := "" |}).

Definition ErrStreamNameAlreadyInUse : error :=
  of_jsError (ref 7 {|
    apiErr := ref 8 {| ErrorCode := JSErrCodeStreamNameInUse;
                        Description := "stream name already in use";
                        Code := 400 |};
    message := "" |}).

Definition ErrConsumerNotFound : error :=
  of_jsError (ref 9 {|
    apiErr := ref 10 {| ErrorCode := JSErrCodeConsumerNotFound;
                        Description := "consumer not found";
                        Code := 404 |};
    message := "" |}).

Definition ErrMsgNotFound : error :=
  of_jsError (ref 11 {|
    apiErr := ref 12 {| ErrorCode := JSErrCodeMessageNotFound;
                        Description := "message not found";
                        Code := 404 |};
    message := "" |}).

Definition ErrBadRequest : error :=
  of_jsError (ref 13 {|
    apiErr := ref 14 {| ErrorCode := JSErrCodeBadRequest;
                        Description := "bad request";
                        Code := 400 |};
    message := "" |}).

(** *** Client errors *)

Definition ErrConsumerNameAlreadyInUse : error :=
  of_jsError (ref 15 {| apiErr := null; message := "consumer name already in use" |}).

Definition ErrInvalidJSAck : error :=
  of_jsError (ref 16 {| apiErr := null; message := "invalid jetstream publish response" |}).

Definition ErrStreamNameRequired : error :=
  of_jsError (ref 17 {| apiErr := null; message := "stream name is required" |}).

Definition ErrConsumerNameRequired : error :=
  of_jsError (ref 18 {| apiErr := null; message := "consumer name is required" |}).

Definition ErrMsgAlreadyAckd : error :=
  of_jsError (ref 19 {| apiErr := null; message := "message was already acknowledged" |}).

Definition ErrNoStreamResponse : error :=
  of_jsError (ref 20 {| apiErr := null; message := "no response from stream" |}).

Definition ErrNotJSMessage : error :=
  of_jsError (ref 21 {| apiErr := null; message := "not a jetstream message" |}).

Definition ErrInvalidStreamName : error :=
  of_jsError (ref 22 {| apiErr := null; message := "invalid stream name" |}).

Definition ErrInvalidConsumerName : error :=
  of_jsError (ref 23 {| apiErr := null; message := "invalid consumer name" |}).

Definition ErrNoMessages : error :=
  of_jsError (ref 24 {| apiErr := null; message := "no messages" |}).

Definition ErrHandlerRequired : error :=
  of_jsError (ref 25 {| apiErr := null; message := "handler cannot be empty" |}).

Definition ErrEndOfData : error := errors_New 26 "nats: end of data reached".

Definition ErrNoHeartbeat : error :=
  of_jsError (ref 27 {| apiErr := null; message := "no heartbeat received, canceling subscription" |}).

Definition ErrConsumerHasActiveSubscription : error :=
  of_jsError (ref 28 {| apiErr := null; message := "consumer has active subscription" |}).

Definition ErrMsgNotBound : error :=
  of_jsError (ref 29 {| apiErr := null; message := "message is not bound to subscription/connection" |}).

Definition ErrMsgNoReply : error :=
  of_jsError (ref 30 {| apiErr := null; message := "message does not have a reply" |}).

Definition ErrMsgDeleteUnsuccessful : error :=
  of_jsError (ref 31 {| apiErr := null; message := "message deletion unsuccessful" |}).

Definition ErrAsyncPublishReplySubjectSet : error :=
  of_jsError (ref 32 {| apiErr := null; message := "reply subject should be empty" |}).

Definition ErrTooManyStalledMsgs : error :=
  of_jsError (ref 33 {| apiErr := null; message := "stalled with too many outstanding async published messages" |}).

(** The variables of the [var] block, by identifier. *)
Definition registry : list (string * error) :=
  [ ("ErrJetStreamNotEnabled", ErrJetStreamNotEnabled);
    ("ErrJetStreamNotEnabledForAccount", ErrJetStreamNotEnabledForAccount);
    ("ErrStreamNotFound", ErrStreamNotFound);
    ("ErrStreamNameAlreadyInUse", ErrStreamNameAlreadyInUse);
    ("ErrConsumerNotFound", ErrConsumerNotFound);
    ("ErrMsgNotFound", ErrMsgNotFound);
    ("ErrBadRequest", ErrBadRequest);
    ("ErrConsumerNameAlreadyInUse", ErrConsumerNameAlreadyInUse);
    ("ErrInvalidJSAck", ErrInvalidJSAck);
    ("ErrStreamNameRequired", ErrStreamNameRequired);
    ("ErrConsumerNameRequired", ErrConsumerNameRequired);
    ("ErrMsgAlreadyAckd", ErrMsgAlreadyAckd);
    ("ErrNoStreamResponse", ErrNoStreamResponse);
    ("ErrNotJSMessage", ErrNotJSMessage);
    ("ErrInvalidStreamName", ErrInvalidStreamName);
    ("ErrInvalidConsumerName", ErrInvalidConsumerName);
    ("ErrNoMessages", ErrNoMessages);
    ("ErrHandlerRequired", ErrHandlerRequired);
    ("ErrEndOfData", ErrEndOfData);
    ("ErrNoHeartbeat", ErrNoHeartbeat);
    ("ErrConsumerHasActiveSubscription", ErrConsumerHasActiveSubscription);
    ("ErrMsgNotBound", ErrMsgNotBound);
    ("ErrMsgNoReply", ErrMsgNoReply);
    ("ErrMsgDeleteUnsuccessful", ErrMsgDeleteUnsuccessful);
    ("ErrAsyncPublishReplySubjectSet", ErrAsyncPublishReplySubjectSet);
    ("ErrTooManyStalledMsgs", ErrTooManyStalledMsgs) ].

Definition lookup (name : string) : option error :=
  option_map snd (find (fun entry => String.eqb (fst entry) name) registry).

(** The constants of the [const] block, by identifier. *)
Definition ErrorCode_constants : list (string * ErrorCode_t) :=
  [ ("JSErrCodeJetStreamNotEnabledForAccount",
     JSErrCodeJetStreamNotEnabledForAccount);
    ("JSErrCodeJetStreamNotEnabled", JSErrCodeJetStreamNotEnabled);
    ("JSErrCodeStreamNotFound", JSErrCodeStreamNotFound);
    ("JSErrCodeStreamNameInUse", JSErrCodeStreamNameInUse);
    ("JSErrCodeConsumerNotFound", JSErrCodeConsumerNotFound);
    ("JSErrCodeConsumerNameExists", JSErrCodeConsumerNameExists);
    ("JSErrCodeConsumerAlreadyExists", JSErrCodeConsumerAlreadyExists);
    ("JSErrCodeMessageNotFound", JSErrCodeMessageNotFound);
    ("JSErrCodeBadRequest", JSErrCodeBadRequest) ].

(** ** The two families of the specification *)

(** A broker-reported sentinel is a [*jsError] with an embedded [*APIError];
    a client-only sentinel is a [*jsError] without one. *)
Definition is_broker_reported (err : error) : bool :=
  match err with
  | of_jsError (ref _ v) =>
      match apiErr v with ref _ _ => true | null => false end
  | _ => false
  end.

Definition is_client_only (err : error) : bool :=
  match err with
  | of_jsError (ref _ v) =>
      match apiErr v with null => true | ref _ _ => false end
  | _ => false
  end.

(** The error code a registry entry reports, if it is broker-reported. *)
Definition reported_code (err : error) : option ErrorCode_t :=
  match err with
  | of_jsError (ref _ v) =>
      match apiErr v with ref _ a => Some (ErrorCode a) | null => None end
  | _ => None
  end.

(** The registry entry reporting error code [c], if there is one. *)
Definition sentinel_for (c : ErrorCode_t) : option (string * error) :=
  find (fun entry =>
          match reported_code (snd entry) with
          | Some c' => c' =? c
          | None => false
          end) registry.

(** The nine broker-reported names, each with its error-code constant. *)
Definition broker_reported_family : list (string * ErrorCode_t) :=
  [ ("stream-not-found", JSErrCodeStreamNotFound);
    ("stream-name-in-use", JSErrCodeStreamNameInUse);
    ("consumer-not-found", JSErrCodeConsumerNotFound);
    ("consumer-name-exists", JSErrCodeConsumerNameExists);
    ("consumer-already-exists", JSErrCodeConsumerAlreadyExists);
    ("message-not-found", JSErrCodeMessageNotFound);
    ("bad-request", JSErrCodeBadRequest);
    ("jetstream-not-enabled", JSErrCodeJetStreamNotEnabled);
    ("jetstream-not-enabled-for-account",
     JSErrCodeJetStreamNotEnabledForAccount) ].

(** The eighteen client-only names, each with its variable. *)
Definition client_only_family : list (string * string) :=
  [ ("consumer-name-already-in-use", "ErrConsumerNameAlreadyInUse");
    ("invalid-publish-acknowledgement", "ErrInvalidJSAck");
    ("stream-name-required", "ErrStreamNameRequired");
    ("consumer-name-required", "ErrConsumerNameRequired");
    ("message-already-acknowledged", "ErrMsgAlreadyAckd");
    ("no-response-from-broker", "ErrNoStreamResponse");
    ("not-a-broker-message", "ErrNotJSMessage");
    ("invalid-stream-name", "ErrInvalidStreamName");
    ("invalid-consumer-name", "ErrInvalidConsumerName");
    ("no-messages-available", "ErrNoMessages");
    ("handler-required", "ErrHandlerRequired");
    ("end-of-data", "ErrEndOfData");
    ("no-heartbeat-received", "ErrNoHeartbeat");
    ("consumer-has-active-subscription", "ErrConsumerHasActiveSubscription");
    ("message-not-bound", "ErrMsgNotBound");
    ("message-has-no-reply-subject", "ErrMsgNoReply");
    ("reply-subject-must-be-empty", "ErrAsyncPublishReplySubjectSet");
    ("too-many-stalled-async-publishes", "ErrTooManyStalledMsgs") ].

(** A client-only name is served when its variable holds a [*jsError]
    carrying only a message and that value has the methods of
    [JetStreamError]. *)
Definition client_only_ok (var : string) : bool :=
  match lookup var with
  | Some err => is_client_only err && implements_JetStreamError err
  | None => false
  end.

(** ** Shapes of candidate errors *)

(** The chain walk from [err] comes to an interface that holds a nil
    [*jsError] or a nil [*APIError]. *)
Fixpoint holds_nil_pointer (err : error) : bool :=
  match err with
  | nil => false
  | of_APIError null => true
  | of_APIError (ref _ _) => false
  | of_jsError null => true
  | of_jsError (ref _ _) => false
  | of_errorString _ => false
  | of_wrapError _ _ inner => holds_nil_pointer inner
  end.

(** [fmt.Errorf] wrappers put around [err], the outermost first; each is an
    address and a message. *)
Definition wrap_all (ws : list (addr * string)) (err : error) : error :=
  fold_right (fun w inner => of_wrapError (fst w) (snd w) inner) err ws.

(** A string of decimal digits, as [%d] prints an unsigned integer. *)
Definition is_digit (c : ascii) : bool :=
  let n := N_of_ascii c in (48 <=? n) && (n <=? 57).

Fixpoint digits_only (s : string) : bool :=
  match s with
  | EmptyString => true
  | String c rest => is_digit c && digits_only rest
  end.

(** * Properties *)

(** ** The chain walks, one step at a time *)

Section ChainWalk.

Variable t : ptr APIError.

Lemma errors_As_nil : errors_As nil t = Ok (false, t).
Proof. simp errors_As. reflexivity. Qed.

Lemma errors_As_APIError p : errors_As (of_APIError p) t = Ok (true, p).
Proof. simp errors_As. reflexivity. Qed.

Lemma errors_As_errorString p :
  errors_As (of_errorString p) t = Ok (false, t).
Proof. simp errors_As. simpl. simp errors_As. reflexivity. Qed.

Lemma errors_As_wrapError a msg inner :
  errors_As (of_wrapError a msg inner) t = errors_As inner t.
Proof. simp errors_As. reflexivity. Qed.

Lemma errors_As_jsError_null : errors_As (of_jsError null) t = Panic.
Proof. simp errors_As. reflexivity. Qed.

Lemma errors_As_jsError a v :
  errors_As (of_jsError (ref a v)) t =
  match apiErr v with
  | null => Ok (false, t)
  | ref _ _ => Ok (true, apiErr v)
  end.
Proof.
  simp errors_As. destruct v as [[ | c w] m]; simpl; simp errors_As;
    reflexivity.
Qed.

End ChainWalk.

Create Rewrite HintDb chain.
#[export] Hint Rewrite errors_As_nil errors_As_APIError errors_As_errorString
  errors_As_wrapError errors_As_jsError_null errors_As_jsError : chain.

Lemma errors_Is_loop_step err target :
  errors_Is_loop err target =
  if error_eqb err target then Ok true
  else
    b <- method_Is err target ;;
    if b then Ok true
    else
      next <- errors_Unwrap err ;;
      match next with
      | nil => Ok false
      | _ => errors_Is_loop next target
      end.
Proof.
  funelim (errors_Is_loop err target);
    repeat match goal with
      | H : error_eqb _ _ = _ |- _ => rewrite H; clear H
      | H : method_Is _ _ = _ |- _ => rewrite H; clear H
      | H : errors_Unwrap ?e = _ |- context [errors_Unwrap ?e] => rewrite H
      end; reflexivity.
Qed.

(** Membership in the registry, entry by entry. *)
Ltac registry_cases H :=
  unfold registry in H; simpl in H;
  repeat (destruct H as [H | H]; [ | ]); [ .. | contradiction ].

(** ** Matching *)

(** [e.Is(err)] at a non-nil receiver and a composite [*jsError]: the
    embedded error is extracted and the error codes are compared. *)
Lemma APIError_Is_composite a ev b c av m :
  APIError_Is (ref a ev) (of_jsError (ref b (mkJsError (ref c av) m))) =
  Ok (ErrorCode ev =? ErrorCode av).
Proof.
  unfold APIError_Is. autorewrite with chain. reflexivity.
Qed.

(** [e.Is(err)] at a non-nil receiver and a non-nil [*APIError]. *)
Lemma APIError_Is_bare a ev c av :
  APIError_Is (ref a ev) (of_APIError (ref c av)) =
  Ok (ErrorCode ev =? ErrorCode av).
Proof.
  unfold APIError_Is. autorewrite with chain. reflexivity.
Qed.

(** A candidate holding a nil [*APIError] is assignable to the target of
    [errors.As], so a non-nil receiver then reads [aerr.ErrorCode] through
    a nil pointer. *)
Remark APIError_Is_nil_candidate a ev :
  APIError_Is (ref a ev) (of_APIError null) = Panic.
Proof.
  unfold APIError_Is. autorewrite with chain. reflexivity.
Qed.

(** C1: a dynamically built [*APIError] whose error code is that of a
    broker-reported sentinel of the registry matches the sentinel, whatever
    its status code and description: [errors.Is(dyn, sentinel)] and
    [dyn.Is(sentinel)] return true, and so does the [Is] method of the
    sentinel's embedded [*APIError] at [dyn].  In particular an [*APIError]
    with error code 10059 and description "stream not found: xyz" matches
    [ErrStreamNotFound]. *)
Theorem dynamic_APIError_matches_sentinel :
  (forall name b c st m,
      In (name, of_jsError (ref b (mkJsError (ref c st) m))) registry ->
      forall a dyn,
        ErrorCode dyn = ErrorCode st ->
        let sentinel := of_jsError (ref b (mkJsError (ref c st) m)) in
        errors_Is (of_APIError (ref a dyn)) sentinel = Ok true /\
        APIError_Is (ref a dyn) sentinel = Ok true /\
        (sentinel_apiErr <- jsError_APIError (ref b (mkJsError (ref c st) m)) ;;
         APIError_Is sentinel_apiErr (of_APIError (ref a dyn))) = Ok true) /\
  (forall a code,
      let dyn := ref a {| Code := code; ErrorCode := 10059;
                          Description := "stream not found: xyz" |} in
      errors_Is (of_APIError dyn) ErrStreamNotFound = Ok true /\
      APIError_Is dyn ErrStreamNotFound = Ok true).
Proof.
  assert (Hgen : forall b c st m a dyn,
             ErrorCode dyn = ErrorCode st ->
             let sentinel := of_jsError (ref b (mkJsError (ref c st) m)) in
             errors_Is (of_APIError (ref a dyn)) sentinel = Ok true /\
             APIError_Is (ref a dyn) sentinel = Ok true).
  { intros b c st m a dyn Hcode sentinel. subst sentinel.
    assert (His : APIError_Is (ref a dyn)
                    (of_jsError (ref b (mkJsError (ref c st) m))) = Ok true).
    { rewrite APIError_Is_composite, Hcode, N.eqb_refl. reflexivity. }
    split; [ | exact His ].
    unfold errors_Is. rewrite errors_Is_loop_step.
    simpl error_eqb. cbv iota. unfold method_Is. rewrite His. reflexivity. }
  split.
  - intros name b c st m _ a dyn Hcode sentinel.
    destruct (Hgen b c st m a dyn Hcode) as [H1 H2].
    repeat split; [ exact H1 | exact H2 | ].
    cbn [jsError_APIError bind apiErr].
    rewrite APIError_Is_bare, Hcode, N.eqb_refl. reflexivity.
  - intros a code dyn. unfold ErrStreamNotFound. apply Hgen. reflexivity.
Qed.

Lemma dynamic_APIError_matches_sentinel_witness :
  In ("ErrConsumerNotFound", ErrConsumerNotFound) registry /\
  errors_Is
    (of_APIError (ref 100 {| Code := 500; ErrorCode := 10014;
                             Description := "no such consumer" |}))
    ErrConsumerNotFound = Ok true.
Proof.
  assert (Hin : In ("ErrConsumerNotFound", ErrConsumerNotFound) registry).
  { unfold registry. simpl. tauto. }
  split; [ exact Hin | ].
  refine (proj1 (proj1 dynamic_APIError_matches_sentinel
                   "ErrConsumerNotFound" 9 10 _ "" Hin 100 _ _)).
  reflexivity.
Defined.

(** C2: let [outer] wrap a [*jsError] that embeds a non-nil [*APIError]
    [v], and let [sentinel] be a broker-reported sentinel of the registry
    with embedded error [st].  The chain walk of [errors.As] passes [outer]
    and the [*jsError] and extracts [v], the first [*APIError] of the chain;
    the [Is] method of the sentinel's embedded error at [outer] returns
    whether the two error codes are equal, so it succeeds iff they are; and
    so does [errors.Is(outer, sentinel)], given that a [*jsError] at the
    sentinel's address is the sentinel. *)
Theorem wrapped_composite_matches_iff_same_code :
  forall name b c st m,
    In (name, of_jsError (ref b (mkJsError (ref c st) m))) registry ->
    forall a msg b' c' v m',
      let sentinel := of_jsError (ref b (mkJsError (ref c st) m)) in
      let client := of_jsError (ref b' (mkJsError (ref c' v) m')) in
      let outer := of_wrapError a msg client in
      errors_Unwrap outer = Ok client /\
      errors_Unwrap client = Ok (of_APIError (ref c' v)) /\
      errors_As outer null = Ok (true, ref c' v) /\
      APIError_Is (ref c st) outer = Ok (ErrorCode st =? ErrorCode v) /\
      (APIError_Is (ref c st) outer = Ok true <->
       ErrorCode v = ErrorCode st) /\
      ((error_eqb client sentinel = true -> client = sentinel) ->
       errors_Is outer sentinel = Ok (ErrorCode v =? ErrorCode st) /\
       (errors_Is outer sentinel = Ok true <-> ErrorCode v = ErrorCode st)).
Proof.
  intros name b c st m _ a msg b' c' v m' sentinel client outer.
  subst sentinel client outer.
  assert (Has : errors_As
                  (of_wrapError a msg
                     (of_jsError (ref b' (mkJsError (ref c' v) m')))) null =
                Ok (true, ref c' v)).
  { autorewrite with chain. reflexivity. }
  assert (His : APIError_Is (ref c st)
                  (of_wrapError a msg
                     (of_jsError (ref b' (mkJsError (ref c' v) m')))) =
                Ok (ErrorCode st =? ErrorCode v)).
  { unfold APIError_Is. rewrite Has. reflexivity. }
  repeat match goal with |- _ /\ _ => split end;
    try reflexivity; try exact Has; try exact His.
  - rewrite His. split.
    + intros H. injection H as H. apply N.eqb_eq in H. congruence.
    + intros H. f_equal. apply N.eqb_eq. congruence.
  - intros Hsame.
    assert (Hloop : errors_Is
              (of_wrapError a msg
                 (of_jsError (ref b' (mkJsError (ref c' v) m'))))
              (of_jsError (ref b (mkJsError (ref c st) m))) =
              Ok (ErrorCode v =? ErrorCode st)).
    { unfold errors_Is.
      rewrite errors_Is_loop_step.
      cbn [error_eqb method_Is bind errors_Unwrap].
      rewrite errors_Is_loop_step.
      destruct (error_eqb (of_jsError (ref b' (mkJsError (ref c' v) m')))
                  (of_jsError (ref b (mkJsError (ref c st) m)))) eqn:Heq.
      - specialize (Hsame eq_refl). injection Hsame as _ _ Hv _.
        subst v. rewrite N.eqb_refl. reflexivity.
      - cbn [method_Is bind errors_Unwrap jsError_Unwrap apiErr].
        rewrite errors_Is_loop_step.
        cbn [error_eqb method_Is].
        rewrite APIError_Is_composite.
        cbn [bind errors_Unwrap].
        destruct (ErrorCode v =? ErrorCode st); reflexivity. }
    split; [ exact Hloop | ].
    rewrite Hloop. split.
    + intros H. injection H as H. apply N.eqb_eq in H. exact H.
    + intros H. f_equal. apply N.eqb_eq. exact H.
Qed.

Lemma wrapped_composite_matches_iff_same_code_witness :
  let client :=
    of_jsError (ref 201 (mkJsError
                           (ref 202 {| Code := 404; ErrorCode := 10059;
                                       Description := "no stream ORDERS" |})
                           "lookup failed")) in
  let outer := of_wrapError 200 "consumer setup: lookup failed" client in
  In ("ErrStreamNotFound", ErrStreamNotFound) registry /\
  (error_eqb client ErrStreamNotFound = true -> client = ErrStreamNotFound) /\
  APIError_Is (ref 6 {| Code := 404; ErrorCode := 10059;
                        Description := "stream not found" |}) outer =
  Ok true /\
  errors_Is outer ErrStreamNotFound = Ok true.
Proof.
  intros client outer.
  assert (Hin : In ("ErrStreamNotFound", ErrStreamNotFound) registry).
  { unfold registry. simpl. tauto. }
  assert (Hsame : error_eqb client ErrStreamNotFound = true ->
                  client = ErrStreamNotFound).
  { simpl. discriminate. }
  pose proof (wrapped_composite_matches_iff_same_code
                "ErrStreamNotFound" 5 6 _ "" Hin
                200 "consumer setup: lookup failed" 201 202
                {| Code := 404; ErrorCode := 10059;
                   Description := "no stream ORDERS" |} "lookup failed")
    as (_ & _ & _ & His & _ & Hgo).
  split; [ exact Hin | ].
  split; [ exact Hsame | ].
  split; [ exact His | ].
  exact (proj1 (Hgo Hsame)).
Defined.

(** C8: the [Is] method at a nil receiver returns false at every candidate
    error, without a panic. *)
Theorem APIError_Is_nil_receiver :
  forall err : error, APIError_Is null err = Ok false.
Proof.
  intros err. reflexivity.
Qed.

(** ** Formatting *)

(** C3: [Error()] on an [*APIError] with status code 404, error code 10059
    and description "stream not found" returns exactly
    "nats: API error 10059: stream not found".  In general the message
    shows the error code, then the description, and does not depend on the
    status code. *)
Theorem APIError_Error_shows_error_code :
  (forall a,
      APIError_Error (ref a {| Code := 404; ErrorCode := 10059;
                               Description := "stream not found" |}) =
      Ok "nats: API error 10059: stream not found") /\
  (forall a v,
      APIError_Error (ref a v) =
      Ok ("nats: API error " ++ fmt_d (ErrorCode v) ++ ": " ++
          Description v)) /\
  (forall a v code,
      APIError_Error (ref a {| Code := code; ErrorCode := ErrorCode v;
                               Description := Description v |}) =
      APIError_Error (ref a v)).
Proof.
  repeat split; intros; reflexivity.
Qed.

(** C6: [Error()] on a [*jsError] returns "nats: " followed by the message
    when no [*APIError] is embedded; when one is embedded and its
    description is not empty, it returns the embedded error's own
    [Error()] message. *)
Theorem jsError_Error_message_or_embedded :
  forall a v,
    (apiErr v = null ->
     jsError_Error (ref a v) = Ok ("nats: " ++ message v)) /\
    (forall c e,
        apiErr v = ref c e -> Description e <> "" ->
        jsError_Error (ref a v) = APIError_Error (ref c e) /\
        jsError_Error (ref a v) =
        Ok ("nats: API error " ++ fmt_d (ErrorCode e) ++ ": " ++
            Description e)).
Proof.
  intros a [p m]. simpl. split.
  - intros ->. reflexivity.
  - intros c e -> Hdesc.
    destruct (String.eqb_spec (Description e) ""); [ contradiction | ].
    split; reflexivity.
Qed.

Lemma jsError_Error_message_or_embedded_witness :
  jsError_Error (ref 25 {| apiErr := null;
                           message := "handler cannot be empty" |}) =
  Ok "nats: handler cannot be empty" /\
  jsError_Error
    (ref 5 {| apiErr := ref 6 {| Code := 404; ErrorCode := 10059;
                                 Description := "stream not found" |};
              message := "" |}) =
  Ok "nats: API error 10059: stream not found".
Proof.
  split.
  - apply (proj1 (jsError_Error_message_or_embedded 25
                    {| apiErr := null;
                       message := "handler cannot be empty" |})).
    reflexivity.
  - apply (proj2 (jsError_Error_message_or_embedded 5
                    {| apiErr := ref 6 {| Code := 404; ErrorCode := 10059;
                                          Description := "stream not found" |};
                       message := "" |}) 6 _ eq_refl).
    simpl. discriminate.
Defined.

(** C10: [Error()] on a [*jsError] whose embedded [*APIError] has an empty
    description returns "nats: " followed by the local message, whatever
    the embedded status code and error code. *)
Theorem jsError_Error_empty_description :
  forall a c code sub m,
    jsError_Error
      (ref a {| apiErr := ref c {| Code := code; ErrorCode := sub;
                                   Description := "" |};
                message := m |}) =
    Ok ("nats: " ++ m).
Proof.
  intros. reflexivity.
Qed.

(** ** Exposing the embedded error *)

(** C7: on a [*jsError] without an embedded [*APIError], [APIError()]
    returns the nil pointer, which is not a pointer to a zero-valued
    [APIError], and [Unwrap()] returns the nil error, where the chain walk
    stops; on one that embeds an [*APIError], both return that pointer. *)
Theorem jsError_APIError_and_Unwrap :
  forall a v,
    (apiErr v = null ->
     jsError_APIError (ref a v) = Ok null /\
     (forall z,
         jsError_APIError (ref a v) <>
         Ok (ref z {| Code := 0; ErrorCode := 0; Description := "" |})) /\
     jsError_Unwrap (ref a v) = Ok nil /\
     errors_Unwrap (of_jsError (ref a v)) = Ok nil /\
     errors_As (of_jsError (ref a v)) null = Ok (false, null)) /\
    (forall c e,
        apiErr v = ref c e ->
        jsError_APIError (ref a v) = Ok (ref c e) /\
        jsError_Unwrap (ref a v) = Ok (of_APIError (ref c e)) /\
        errors_Unwrap (of_jsError (ref a v)) = Ok (of_APIError (ref c e))).
Proof.
  intros a [p m]. simpl. split.
  - intros ->. autorewrite with chain. simpl.
    repeat split; try reflexivity. intros z. discriminate.
  - intros c e ->. repeat split; reflexivity.
Qed.

Lemma jsError_APIError_and_Unwrap_witness :
  (jsError_APIError (ref 25 {| apiErr := null;
                               message := "handler cannot be empty" |}) =
   Ok null /\
   jsError_Unwrap (ref 25 {| apiErr := null;
                             message := "handler cannot be empty" |}) =
   Ok nil) /\
  (let st := {| Code := 404; ErrorCode := 10059;
                Description := "stream not found" |} in
   jsError_APIError (ref 5 {| apiErr := ref 6 st; message := "" |}) =
   Ok (ref 6 st) /\
   jsError_Unwrap (ref 5 {| apiErr := ref 6 st; message := "" |}) =
   Ok (of_APIError (ref 6 st))).
Proof.
  split.
  - destruct (proj1 (jsError_APIError_and_Unwrap 25
                       {| apiErr := null;
                          message := "handler cannot be empty" |}) eq_refl)
      as (H1 & _ & H2 & _).
    split; [ exact H1 | exact H2 ].
  - intros st.
    destruct (proj2 (jsError_APIError_and_Unwrap 5
                       {| apiErr := ref 6 st; message := "" |})
                6 st eq_refl) as (H1 & H2 & _).
    split; [ exact H1 | exact H2 ].
Defined.

(** ** The registry *)

(** The constants of the [const] block fit [uint16] and are pairwise
    distinct. *)
Lemma ErrorCode_constants_distinct :
  Forall (fun entry => is_uint16 (snd entry) = true) ErrorCode_constants /\
  NoDup (map snd ErrorCode_constants).
Proof.
  unfold ErrorCode_constants. simpl. split.
  - repeat (constructor; [ reflexivity | ]). constructor.
  - repeat (constructor; [ simpl; intuition discriminate | ]). constructor.
Qed.

(** C9: two distinct entries of the registry that are broker-reported
    sentinels report distinct error codes. *)
Theorem broker_sentinels_have_distinct_codes :
  forall n1 e1 c1 n2 e2 c2,
    In (n1, e1) registry -> In (n2, e2) registry ->
    reported_code e1 = Some c1 -> reported_code e2 = Some c2 ->
    (n1, e1) <> (n2, e2) ->
    c1 <> c2.
Proof.
  intros n1 e1 c1 n2 e2 c2 H1 H2 Hc1 Hc2 Hneq Heq. subst c2.
  registry_cases H1; injection H1 as <- <-; simpl in Hc1;
    try discriminate; injection Hc1 as <-;
    registry_cases H2; injection H2 as <- <-; simpl in Hc2;
    try discriminate; solve [ apply Hneq; reflexivity ].
Qed.

Lemma broker_sentinels_have_distinct_codes_witness :
  In ("ErrStreamNotFound", ErrStreamNotFound) registry /\
  In ("ErrStreamNameAlreadyInUse", ErrStreamNameAlreadyInUse) registry /\
  JSErrCodeStreamNotFound <> JSErrCodeStreamNameInUse.
Proof.
  assert (H1 : In ("ErrStreamNotFound", ErrStreamNotFound) registry).
  { unfold registry. simpl. tauto. }
  assert (H2 : In ("ErrStreamNameAlreadyInUse", ErrStreamNameAlreadyInUse)
                 registry).
  { unfold registry. simpl. tauto. }
  split; [ exact H1 | ]. split; [ exact H2 | ].
  apply (broker_sentinels_have_distinct_codes
           "ErrStreamNotFound" ErrStreamNotFound JSErrCodeStreamNotFound
           "ErrStreamNameAlreadyInUse" ErrStreamNameAlreadyInUse
           JSErrCodeStreamNameInUse H1 H2).
  - reflexivity.
  - reflexivity.
  - discriminate.
Defined.

(** No entry of the registry reports a code for which [sentinel_for] finds
    nothing. *)
Lemma sentinel_for_None c :
  sentinel_for c = None ->
  forall name e, In (name, e) registry -> reported_code e <> Some c.
Proof.
  unfold sentinel_for. intros Hnone name e Hin Hcode.
  apply (find_none _ _ Hnone) in Hin. simpl in Hin.
  rewrite Hcode, N.eqb_refl in Hin. discriminate.
Qed.

(** C4, as stated, fails: the registry holds no broker-reported sentinel
    for consumer-name-exists (error code 10013), nor for
    consumer-already-exists (error code 10105). *)
Lemma no_sentinel_for_consumer_name_exists :
  In ("consumer-name-exists", JSErrCodeConsumerNameExists)
    broker_reported_family /\
  sentinel_for JSErrCodeConsumerNameExists = None /\
  sentinel_for JSErrCodeConsumerAlreadyExists = None /\
  ~ (forall name c,
        In (name, c) broker_reported_family ->
        exists var e, In (var, e) registry /\ reported_code e = Some c).
Proof.
  assert (Hin : In ("consumer-name-exists", JSErrCodeConsumerNameExists)
                  broker_reported_family).
  { unfold broker_reported_family. simpl. tauto. }
  repeat split; try exact Hin; try reflexivity.
  intros Hall. destruct (Hall _ _ Hin) as (var & e & Hreg & Hcode).
  exact (sentinel_for_None JSErrCodeConsumerNameExists eq_refl
           var e Hreg Hcode).
Qed.

(** C4, amended: the registry holds a broker-reported sentinel for seven of
    the nine names, each with its own error code and a default status code
    and description; consumer-name-exists and consumer-already-exists have
    an error-code constant only, and the nine constants are pairwise
    distinct. *)
Theorem registry_broker_sentinels :
  sentinel_for JSErrCodeStreamNotFound =
    Some ("ErrStreamNotFound", ErrStreamNotFound) /\
  sentinel_for JSErrCodeStreamNameInUse =
    Some ("ErrStreamNameAlreadyInUse", ErrStreamNameAlreadyInUse) /\
  sentinel_for JSErrCodeConsumerNotFound =
    Some ("ErrConsumerNotFound", ErrConsumerNotFound) /\
  sentinel_for JSErrCodeMessageNotFound =
    Some ("ErrMsgNotFound", ErrMsgNotFound) /\
  sentinel_for JSErrCodeBadRequest =
    Some ("ErrBadRequest", ErrBadRequest) /\
  sentinel_for JSErrCodeJetStreamNotEnabled =
    Some ("ErrJetStreamNotEnabled", ErrJetStreamNotEnabled) /\
  sentinel_for JSErrCodeJetStreamNotEnabledForAccount =
    Some ("ErrJetStreamNotEnabledForAccount",
          ErrJetStreamNotEnabledForAccount) /\
  sentinel_for JSErrCodeConsumerNameExists = None /\
  sentinel_for JSErrCodeConsumerAlreadyExists = None /\
  NoDup (map snd broker_reported_family) /\
  List.length
    (filter (fun entry => is_broker_reported (snd entry)) registry) =
    7%nat /\
  Forall (fun entry =>
            exists b c st m,
              snd entry = of_jsError (ref b (mkJsError (ref c st) m)) /\
              Description st <> "" /\
              In (Code st) [400; 404; 503]%Z)
         (filter (fun entry => is_broker_reported (snd entry)) registry).
Proof.
  repeat match goal with |- _ /\ _ => split end; try reflexivity.
  - unfold broker_reported_family. simpl.
    repeat (constructor; [ simpl; intuition discriminate | ]).
    constructor.
  - unfold registry. simpl.
    repeat (constructor;
            [ do 4 eexists; split; [ reflexivity | ]; simpl;
              split; [ discriminate | tauto ]
            | ]).
    constructor.
Qed.

(** C5, as stated, fails at end-of-data: [ErrEndOfData] is made by
    [errors.New]; it is not a [*jsError] and has no [APIError()] method. *)
Lemma end_of_data_is_not_a_jsError :
  In ("end-of-data", "ErrEndOfData") client_only_family /\
  lookup "ErrEndOfData" =
    Some (of_errorString (ref 26 "nats: end of data reached")) /\
  is_client_only ErrEndOfData = false /\
  implements_JetStreamError ErrEndOfData = false /\
  client_only_ok "ErrEndOfData" = false /\
  ~ (forall name var,
        In (name, var) client_only_family -> client_only_ok var = true).
Proof.
  assert (Hin : In ("end-of-data", "ErrEndOfData") client_only_family).
  { unfold client_only_family. simpl. tauto. }
  repeat split; try exact Hin; try reflexivity.
  intros Hall. specialize (Hall _ _ Hin). discriminate Hall.
Qed.

(** C5, amended: every name of the client-only family other than
    end-of-data is a [*jsError] carrying only a message, with the methods
    of [JetStreamError]: [Error()] returns "nats: " followed by the message
    and [APIError()] returns the nil pointer.  End-of-data is an
    [errors.New] value whose [Error()] returns
    "nats: end of data reached". *)
Theorem client_only_sentinels :
  (forall name var,
      In (name, var) client_only_family -> var <> "ErrEndOfData" ->
      client_only_ok var = true /\
      exists a m,
        lookup var = Some (of_jsError (ref a (mkJsError null m))) /\
        error_Error (of_jsError (ref a (mkJsError null m))) =
        Ok ("nats: " ++ m) /\
        jsError_APIError (ref a (mkJsError null m)) = Ok null) /\
  lookup "ErrEndOfData" = Some ErrEndOfData /\
  error_Error ErrEndOfData = Ok "nats: end of data reached".
Proof.
  split; [ | split; reflexivity ].
  intros name var Hin Hvar.
  unfold client_only_family in Hin. simpl in Hin.
  repeat (destruct Hin as [Hin | Hin];
          [ injection Hin as <- <-;
            first [ exfalso; apply Hvar; reflexivity
                  | split; [ reflexivity
                           | do 2 eexists; repeat split; reflexivity ] ]
          | ]).
  contradiction.
Qed.

Lemma client_only_sentinels_witness :
  In ("handler-required", "ErrHandlerRequired") client_only_family /\
  "ErrHandlerRequired" <> "ErrEndOfData" /\
  client_only_ok "ErrHandlerRequired" = true.
Proof.
  assert (Hin : In ("handler-required", "ErrHandlerRequired")
                  client_only_family).
  { unfold client_only_family. simpl. tauto. }
  assert (Hvar : "ErrHandlerRequired" <> "ErrEndOfData").
  { discriminate. }
  split; [ exact Hin | ]. split; [ exact Hvar | ].
  exact (proj1 (proj1 client_only_sentinels
                  "handler-required" "ErrHandlerRequired" Hin Hvar)).
Defined.

(** * Further properties of the matching protocol *)

(** ** When [Is] panics *)

(** X1: at a non-nil receiver, [Is] panics exactly when the chain walk from
    the candidate comes to an interface holding a nil [*jsError] or a nil
    [*APIError]; at every other candidate it returns a boolean. *)
Theorem APIError_Is_panics_iff_nil_pointer :
  forall a ev err,
    (APIError_Is (ref a ev) err = Panic <-> holds_nil_pointer err = true) /\
    (holds_nil_pointer err = false <->
     exists b, APIError_Is (ref a ev) err = Ok b).
Proof.
  intros a ev err.
  assert (Hcases :
            (holds_nil_pointer err = true /\
             APIError_Is (ref a ev) err = Panic) \/
            (holds_nil_pointer err = false /\
             exists b, APIError_Is (ref a ev) err = Ok b)).
  { unfold APIError_Is.
    induction err as [ | [ | c av] | [ | b [[ | c av] m]] | p
                     | w msg inner IH ];
      autorewrite with chain; simpl.
    - right. split; [ reflexivity | eexists; reflexivity ].
    - left. split; reflexivity.
    - right. split; [ reflexivity | eexists; reflexivity ].
    - left. split; reflexivity.
    - right. split; [ reflexivity | eexists; reflexivity ].
    - right. split; [ reflexivity | eexists; reflexivity ].
    - right. split; [ reflexivity | eexists; reflexivity ].
    - exact IH. }
  destruct Hcases as [[Hnil Hpanic] | [Hfree [b Hok]]]; split; split;
    intros H; try assumption; try congruence.
  - destruct H as [b Hb]. congruence.
  - exists b. exact Hok.
Qed.

(** ** What matching depends on *)

(** X2: matching sees through wrappers and composites.  Any number of
    [fmt.Errorf] wrappers around a candidate leaves the result of [Is]
    unchanged, and a [*jsError] embedding a non-nil [*APIError] is matched
    as that [*APIError] is, whatever its local message. *)
Theorem APIError_Is_sees_through_wrappers :
  (forall e ws err, APIError_Is e (wrap_all ws err) = APIError_Is e err) /\
  (forall e b c v m,
      APIError_Is e (of_jsError (ref b (mkJsError (ref c v) m))) =
      APIError_Is e (of_APIError (ref c v))).
Proof.
  split.
  - intros e ws err. induction ws as [ | [w msg] ws IH ]; [ reflexivity | ].
    simpl. rewrite <- IH. destruct e as [ | a ev ]; [ reflexivity | ].
    unfold APIError_Is. autorewrite with chain. reflexivity.
  - intros [ | a ev ] b c v m; [ reflexivity | ].
    unfold APIError_Is. autorewrite with chain. reflexivity.
Qed.

(** X3: between non-nil [*APIError] values, matching with [Is] is an
    equivalence that looks at the error code only: it is reflexive and
    symmetric, it is transitive, and two receivers with the same
    [ErrorCode] give the same result at every candidate, whatever their
    status codes and descriptions. *)
Theorem APIError_Is_equivalence_on_codes :
  forall a x b y,
    APIError_Is (ref a x) (of_APIError (ref a x)) = Ok true /\
    APIError_Is (ref a x) (of_APIError (ref b y)) =
    APIError_Is (ref b y) (of_APIError (ref a x)) /\
    (forall c z,
        APIError_Is (ref a x) (of_APIError (ref b y)) = Ok true ->
        APIError_Is (ref b y) (of_APIError (ref c z)) = Ok true ->
        APIError_Is (ref a x) (of_APIError (ref c z)) = Ok true) /\
    (ErrorCode x = ErrorCode y ->
     forall err, APIError_Is (ref a x) err = APIError_Is (ref b y) err).
Proof.
  intros a x b y. rewrite !APIError_Is_bare. repeat split.
  - rewrite N.eqb_refl. reflexivity.
  - rewrite N.eqb_sym. reflexivity.
  - intros c z. rewrite !APIError_Is_bare. intros Hxy Hyz.
    injection Hxy as Hxy. injection Hyz as Hyz.
    apply N.eqb_eq in Hxy. apply N.eqb_eq in Hyz.
    f_equal. apply N.eqb_eq. congruence.
  - intros Hcode err. unfold APIError_Is. rewrite Hcode. reflexivity.
Qed.

Lemma APIError_Is_equivalence_on_codes_witness :
  let x := {| Code := 404; ErrorCode := 10059;
              Description := "stream not found" |} in
  let y := {| Code := 500; ErrorCode := 10059; Description := "" |} in
  let z := {| Code := 404; ErrorCode := 10059;
              Description := "no stream ORDERS" |} in
  APIError_Is (ref 6 x) (of_APIError (ref 301 z)) = Ok true /\
  APIError_Is (ref 6 x) ErrStreamNotFound =
  APIError_Is (ref 300 y) ErrStreamNotFound.
Proof.
  intros x y z.
  destruct (APIError_Is_equivalence_on_codes 6 x 300 y)
    as (_ & _ & Htrans & Hcode).
  split.
  - apply Htrans.
    + rewrite APIError_Is_bare. reflexivity.
    + rewrite APIError_Is_bare. reflexivity.
  - apply Hcode. reflexivity.
Defined.

(** ** [errors.Is] on the values of the package *)

Lemma errors_Is_APIError_composite a dyn b c st m :
  errors_Is (of_APIError (ref a dyn))
    (of_jsError (ref b (mkJsError (ref c st) m))) =
  Ok (ErrorCode dyn =? ErrorCode st).
Proof.
  unfold errors_Is. rewrite errors_Is_loop_step.
  cbn [error_eqb method_Is]. rewrite APIError_Is_composite.
  cbn [bind errors_Unwrap]. destruct (ErrorCode dyn =? ErrorCode st);
    reflexivity.
Qed.

Lemma errors_Is_APIError_client a dyn b m :
  errors_Is (of_APIError (ref a dyn)) (of_jsError (ref b (mkJsError null m))) =
  Ok false.
Proof.
  unfold errors_Is. rewrite errors_Is_loop_step.
  cbn [error_eqb method_Is]. unfold APIError_Is.
  autorewrite with chain. reflexivity.
Qed.

Lemma errors_Is_APIError_errorString a dyn p :
  errors_Is (of_APIError (ref a dyn)) (of_errorString p) = Ok false.
Proof.
  unfold errors_Is. rewrite errors_Is_loop_step.
  cbn [error_eqb method_Is]. unfold APIError_Is.
  autorewrite with chain. reflexivity.
Qed.

Lemma dynamic_APIError_against_registry_aux name s :
  In (name, s) registry ->
  forall a dyn,
    errors_Is (of_APIError (ref a dyn)) s =
    Ok (match reported_code s with
        | Some c => ErrorCode dyn =? c
        | None => false
        end).
Proof.
  intros Hin a dyn.
  registry_cases Hin; injection Hin as <- <-;
    first [ apply errors_Is_APIError_composite
          | apply errors_Is_APIError_client
          | apply errors_Is_APIError_errorString ].
Qed.

(** X4: a dynamically built non-nil [*APIError] matches an entry of the
    registry under [errors.Is] exactly when the entry is a broker-reported
    sentinel with the same error code; it matches no client-only entry and
    not [ErrEndOfData], and an error code that no sentinel carries matches
    nothing. *)
Theorem dynamic_APIError_against_registry :
  forall name s,
    In (name, s) registry ->
    forall a dyn,
      errors_Is (of_APIError (ref a dyn)) s =
      Ok (match reported_code s with
          | Some c => ErrorCode dyn =? c
          | None => false
          end) /\
      (sentinel_for (ErrorCode dyn) = None ->
       errors_Is (of_APIError (ref a dyn)) s = Ok false).
Proof.
  intros name s Hin a dyn.
  pose proof (dynamic_APIError_against_registry_aux name s Hin a dyn) as Hs.
  split; [ exact Hs | ].
  intros Hnone. rewrite Hs.
  pose proof (sentinel_for_None (ErrorCode dyn) Hnone name s Hin) as Hcode.
  destruct (reported_code s) as [c | ]; [ | reflexivity ].
  destruct (N.eqb_spec (ErrorCode dyn) c) as [Heq | _]; [ | reflexivity ].
  exfalso. apply Hcode. rewrite Heq. reflexivity.
Qed.

Lemma dynamic_APIError_against_registry_witness :
  let dyn := {| Code := 400; ErrorCode := 10013;
                Description := "consumer name already in use" |} in
  In ("ErrConsumerNameAlreadyInUse", ErrConsumerNameAlreadyInUse) registry /\
  sentinel_for (ErrorCode dyn) = None /\
  errors_Is (of_APIError (ref 100 dyn)) ErrConsumerNameAlreadyInUse =
  Ok false.
Proof.
  intros dyn.
  assert (Hin : In ("ErrConsumerNameAlreadyInUse",
                    ErrConsumerNameAlreadyInUse) registry).
  { unfold registry. simpl. tauto. }
  assert (Hnone : sentinel_for (ErrorCode dyn) = None).
  { reflexivity. }
  split; [ exact Hin | ]. split; [ exact Hnone | ].
  exact (proj2 (dynamic_APIError_against_registry
                  "ErrConsumerNameAlreadyInUse" ErrConsumerNameAlreadyInUse
                  Hin 100 dyn) Hnone).
Defined.

(** X5: under [errors.Is] the entries of the registry are mutually
    exclusive: an entry matches itself and no other entry. *)
Theorem registry_entries_match_only_themselves :
  forall n1 e1 n2 e2,
    In (n1, e1) registry -> In (n2, e2) registry ->
    errors_Is e1 e2 = Ok (String.eqb n1 n2).
Proof.
  intros n1 e1 n2 e2 H1 H2.
  registry_cases H1; injection H1 as <- <-;
    registry_cases H2; injection H2 as <- <-;
    vm_compute; reflexivity.
Qed.

Lemma registry_entries_match_only_themselves_witness :
  In ("ErrNoMessages", ErrNoMessages) registry /\
  In ("ErrEndOfData", ErrEndOfData) registry /\
  errors_Is ErrNoMessages ErrNoMessages = Ok true /\
  errors_Is ErrNoMessages ErrEndOfData = Ok false.
Proof.
  assert (H1 : In ("ErrNoMessages", ErrNoMessages) registry).
  { unfold registry. simpl. tauto. }
  assert (H2 : In ("ErrEndOfData", ErrEndOfData) registry).
  { unfold registry. simpl. tauto. }
  split; [ exact H1 | ]. split; [ exact H2 | ]. split.
  - exact (registry_entries_match_only_themselves
             "ErrNoMessages" ErrNoMessages "ErrNoMessages" ErrNoMessages
             H1 H1).
  - exact (registry_entries_match_only_themselves
             "ErrNoMessages" ErrNoMessages "ErrEndOfData" ErrEndOfData
             H1 H2).
Defined.

(** X6: an error without an embedded [*APIError], that is a [*jsError]
    carrying only a message or an [errors.New] value, matches by identity
    alone: [errors.Is] at such an error returns whether the target is the
    very same pointer, so two client errors with the same message at
    distinct addresses do not match; and [Is] of any [*APIError] returns
    false at it. *)
Theorem client_only_errors_match_by_identity :
  (forall b m target,
      errors_Is (of_jsError (ref b (mkJsError null m))) target =
      Ok (error_eqb (of_jsError (ref b (mkJsError null m))) target)) /\
  (forall b m b' m',
      errors_Is (of_jsError (ref b (mkJsError null m)))
        (of_jsError (ref b' (mkJsError null m'))) = Ok (b =? b')) /\
  (forall b text target,
      errors_Is (errors_New b text) target =
      Ok (error_eqb (errors_New b text) target)) /\
  (forall e b m,
      APIError_Is e (of_jsError (ref b (mkJsError null m))) = Ok false) /\
  (forall e b text, APIError_Is e (errors_New b text) = Ok false).
Proof.
  assert (Hjs : forall b m target,
             errors_Is (of_jsError (ref b (mkJsError null m))) target =
             Ok (error_eqb (of_jsError (ref b (mkJsError null m))) target)).
  { intros b m target. unfold errors_Is.
    destruct target as [ | p | p | p | w msg inner ]; [ reflexivity | .. ];
      rewrite errors_Is_loop_step; cbn [method_Is bind errors_Unwrap
                                         jsError_Unwrap apiErr];
      match goal with |- context [if ?c then _ else _] => destruct c end;
      reflexivity. }
  repeat match goal with |- _ /\ _ => split end.
  - exact Hjs.
  - intros b m b' m'. rewrite Hjs. reflexivity.
  - intros b text target. unfold errors_Is, errors_New.
    destruct target as [ | p | p | p | w msg inner ]; [ reflexivity | .. ];
      rewrite errors_Is_loop_step; cbn [method_Is bind errors_Unwrap];
      match goal with |- context [if ?c then _ else _] => destruct c end;
      reflexivity.
  - intros [ | a ev ] b m; [ reflexivity | ].
    unfold APIError_Is. autorewrite with chain. reflexivity.
  - intros [ | a ev ] b text; [ reflexivity | ].
    unfold APIError_Is, errors_New. autorewrite with chain. reflexivity.
Qed.

(** One more wrapper does not change the loop of [errors.Is] at a target
    that is a [*APIError] or a [*jsError]. *)
Lemma errors_Is_loop_wrapError w msg inner target :
  implements_JetStreamError target = true ->
  errors_Is_loop (of_wrapError w msg inner) target =
  errors_Is_loop inner target.
Proof.
  intros Htarget.
  rewrite errors_Is_loop_step.
  assert (Heq : error_eqb (of_wrapError w msg inner) target = false).
  { destruct target; try reflexivity; discriminate. }
  rewrite Heq. cbn [method_Is bind errors_Unwrap].
  destruct inner; try reflexivity.
  rewrite errors_Is_loop_step.
  destruct target; try discriminate; reflexivity.
Qed.

(** X7: [errors.Is] sees through wrappers: at a target that is a
    [*APIError] or a [*jsError], any number of [fmt.Errorf] wrappers around
    an error leaves the result unchanged.  So a wrapped error matches a
    sentinel exactly when the error inside does. *)
Theorem errors_Is_sees_through_wrappers :
  forall ws err target,
    implements_JetStreamError target = true ->
    errors_Is (wrap_all ws err) target = errors_Is err target.
Proof.
  intros ws err target Htarget.
  induction ws as [ | [w msg] ws IH ]; [ reflexivity | ].
  rewrite <- IH. simpl wrap_all. unfold errors_Is.
  destruct target; try discriminate;
    apply errors_Is_loop_wrapError; reflexivity.
Qed.

Lemma errors_Is_sees_through_wrappers_witness :
  let dyn := of_APIError (ref 100 {| Code := 404; ErrorCode := 10059;
                                     Description := "no stream ORDERS" |}) in
  implements_JetStreamError ErrStreamNotFound = true /\
  errors_Is (wrap_all [(200, "publish: setup failed"); (201, "setup failed")]
               dyn) ErrStreamNotFound =
  errors_Is dyn ErrStreamNotFound.
Proof.
  intros dyn. split; [ reflexivity | ].
  apply errors_Is_sees_through_wrappers. reflexivity.
Defined.

(** X10: a composite, that is a [*jsError] embedding a non-nil
    [*APIError], matches an entry of the registry under [errors.Is] exactly
    when it is that very pointer or the entry is a broker-reported sentinel
    with the same error code; its local message plays no part.  Between two
    composites [errors.Is] is symmetric. *)
Theorem composite_against_registry :
  (forall name s,
      In (name, s) registry ->
      forall b c dyn m,
        let composite := of_jsError (ref b (mkJsError (ref c dyn) m)) in
        errors_Is composite s =
        Ok (error_eqb composite s ||
            match reported_code s with
            | Some code => ErrorCode dyn =? code
            | None => false
            end)) /\
  (forall b c x m b' c' y m',
      errors_Is (of_jsError (ref b (mkJsError (ref c x) m)))
        (of_jsError (ref b' (mkJsError (ref c' y) m'))) =
      Ok ((b =? b') || (ErrorCode x =? ErrorCode y))) /\
  (forall b c x m b' c' y m',
      errors_Is (of_jsError (ref b (mkJsError (ref c x) m)))
        (of_jsError (ref b' (mkJsError (ref c' y) m'))) =
      errors_Is (of_jsError (ref b' (mkJsError (ref c' y) m')))
        (of_jsError (ref b (mkJsError (ref c x) m)))).
Proof.
  assert (Hstep : forall b c dyn m target,
             target <> nil ->
             errors_Is (of_jsError (ref b (mkJsError (ref c dyn) m))) target =
             if error_eqb (of_jsError (ref b (mkJsError (ref c dyn) m)))
                  target
             then Ok true
             else errors_Is (of_APIError (ref c dyn)) target).
  { intros b c dyn m target Hnil. unfold errors_Is.
    destruct target; try congruence;
      rewrite errors_Is_loop_step;
      cbn [method_Is bind errors_Unwrap jsError_Unwrap apiErr];
      reflexivity. }
  assert (Hpair : forall b c x m b' c' y m',
             errors_Is (of_jsError (ref b (mkJsError (ref c x) m)))
               (of_jsError (ref b' (mkJsError (ref c' y) m'))) =
             Ok ((b =? b') || (ErrorCode x =? ErrorCode y))).
  { intros. rewrite Hstep by discriminate.
    rewrite errors_Is_APIError_composite. cbn [error_eqb ptr_eqb].
    destruct (b =? b'); reflexivity. }
  repeat match goal with |- _ /\ _ => split end.
  - intros name s Hin b c dyn m composite. subst composite.
    assert (Hnil : s <> nil).
    { registry_cases Hin; injection Hin as <- <-; discriminate. }
    rewrite (Hstep b c dyn m s Hnil).
    rewrite (dynamic_APIError_against_registry_aux name s Hin c dyn).
    destruct (error_eqb (of_jsError (ref b (mkJsError (ref c dyn) m))) s);
      reflexivity.
  - exact Hpair.
  - intros. rewrite !Hpair.
    rewrite (N.eqb_sym b b'), (N.eqb_sym (ErrorCode x) (ErrorCode y)).
    reflexivity.
Qed.

Lemma composite_against_registry_witness :
  In ("ErrConsumerNotFound", ErrConsumerNotFound) registry /\
  errors_Is
    (of_jsError
       (ref 400 (mkJsError
                   (ref 401 {| Code := 404; ErrorCode := 10014;
                               Description := "consumer not found" |})
                   "")))
    ErrConsumerNotFound = Ok true.
Proof.
  assert (Hin : In ("ErrConsumerNotFound", ErrConsumerNotFound) registry).
  { unfold registry. simpl. tauto. }
  split; [ exact Hin | ].
  exact (proj1 composite_against_registry
           "ErrConsumerNotFound" ErrConsumerNotFound Hin 400 401
           {| Code := 404; ErrorCode := 10014;
              Description := "consumer not found" |} "").
Defined.

(** ** Messages *)

Lemma prefix_namespace rest : String.prefix "nats: " ("nats: " ++ rest) = true.
Proof.
  simpl. destruct rest; reflexivity.
Qed.

(** X8: every message of a [JetStreamError] starts with the namespace:
    whenever [Error()] returns at a [*APIError] or a [*jsError], the string
    begins with "nats: ".  So does the message of every entry of the
    registry, [ErrEndOfData] included, and none of these calls panics. *)
Theorem Error_messages_start_with_namespace :
  (forall err s,
      implements_JetStreamError err = true ->
      error_Error err = Ok s ->
      String.prefix "nats: " s = true) /\
  Forall (fun entry =>
            exists s, error_Error (snd entry) = Ok s /\
                      String.prefix "nats: " s = true)
         registry.
Proof.
  split.
  - intros err s Himpl Herr.
    destruct err as [ | [ | a v] | [ | b [[ | c st] m]] | p | w msg inner ];
      try discriminate; simpl in Herr.
    + injection Herr as <-. apply prefix_namespace.
    + injection Herr as <-. apply prefix_namespace.
    + destruct (negb (Description st =? "")%string);
        injection Herr as <-; apply prefix_namespace.
  - unfold registry.
    repeat (constructor; [ eexists; split; reflexivity | ]).
    constructor.
Qed.

Lemma Error_messages_start_with_namespace_witness :
  implements_JetStreamError ErrBadRequest = true /\
  error_Error ErrBadRequest = Ok "nats: API error 10003: bad request" /\
  String.prefix "nats: " "nats: API error 10003: bad request" = true.
Proof.
  assert (Himpl : implements_JetStreamError ErrBadRequest = true).
  { reflexivity. }
  assert (Herr : error_Error ErrBadRequest =
                 Ok "nats: API error 10003: bad request").
  { reflexivity. }
  split; [ exact Himpl | ]. split; [ exact Herr | ].
  exact (proj1 Error_messages_start_with_namespace
           ErrBadRequest _ Himpl Herr).
Defined.

(** [%d] prints decimal digits only, and distinct numbers print
    differently. *)
Lemma fmt_d_digits_only n : digits_only (fmt_d n) = true.
Proof.
  unfold fmt_d, NilZero.string_of_uint.
  assert (H : forall d, digits_only (NilEmpty.string_of_uint d) = true).
  { induction d; simpl; try rewrite IHd; reflexivity. }
  destruct (N.to_uint n); try reflexivity; apply H.
Qed.

Lemma fmt_d_inj n n' : fmt_d n = fmt_d n' -> n = n'.
Proof.
  unfold fmt_d. intros H.
  assert (Hnonnil : forall k, N.to_uint k <> Decimal.Nil).
  { intros [ | q ]; simpl; [ discriminate | ].
    apply DecimalPos.Unsigned.to_uint_nonnil. }
  apply (f_equal NilZero.uint_of_string) in H.
  rewrite !NilZero.usu in H by apply Hnonnil.
  injection H as H. apply DecimalN.Unsigned.to_uint_inj. exact H.
Qed.

(** A digit string is cut from what follows it at the first colon. *)
Lemma digits_colon_split s s' r r' :
  digits_only s = true -> digits_only s' = true ->
  s ++ ": " ++ r = s' ++ ": " ++ r' -> s = s' /\ r = r'.
Proof.
  revert s'. induction s as [ | c s IH ]; intros [ | c' s' ] Hs Hs' Heq;
    simpl in *.
  - injection Heq as Heq. split; [ reflexivity | exact Heq ].
  - injection Heq as Hc _. subst c'.
    simpl in Hs'. discriminate.
  - injection Heq as Hc _. subst c.
    simpl in Hs. discriminate.
  - injection Heq as Hc Heq. subst c'.
    apply andb_prop in Hs. apply andb_prop in Hs'.
    destruct (IH s' (proj2 Hs) (proj2 Hs') Heq) as [-> ->].
    split; reflexivity.
Qed.

(** X9: the message of an [*APIError] determines its error code and its
    description: two non-nil [*APIError] values with the same [Error()]
    message have the same [ErrorCode] and the same [Description] (their
    status codes may differ). *)
Theorem APIError_Error_determines_code_and_description :
  forall a v a' v',
    APIError_Error (ref a v) = APIError_Error (ref a' v') ->
    ErrorCode v = ErrorCode v' /\ Description v = Description v'.
Proof.
  intros a v a' v' H. simpl in H. injection H as H.
  apply digits_colon_split in H; try apply fmt_d_digits_only.
  destruct H as [Hcode Hdesc].
  split; [ apply fmt_d_inj; exact Hcode | exact Hdesc ].
Qed.

Lemma APIError_Error_determines_code_and_description_witness :
  let v := {| Code := 404; ErrorCode := 10059;
              Description := "stream not found" |} in
  let v' := {| Code := 500; ErrorCode := 10059;
               Description := "stream not found" |} in
  APIError_Error (ref 6 v) = APIError_Error (ref 100 v') /\
  ErrorCode v = ErrorCode v' /\ Description v = Description v'.
Proof.
  intros v v'.
  assert (H : APIError_Error (ref 6 v) = APIError_Error (ref 100 v')).
  { reflexivity. }
  split; [ exact H | ].
  exact (APIError_Error_determines_code_and_description 6 v 100 v' H).
Defined.
